(** * Saudi bank SMS transaction analyzer: a shallow embedding

    The development follows [transactions_analysis.py]:

    - Python [str] values are sequences of Unicode code points ([list Z]);
    - [re.search] is a backtracking matcher over a small regular-expression
      syntax, and the six patterns of [extract_transaction_details] are
      written in that syntax;
    - [float], [pd.to_datetime] and [json.dump] are modelled after the
      behaviour of the libraries the script calls;
    - exceptions, the console and the output file are threaded through a
      state-and-error monad. *)

From Stdlib Require Import String Ascii.
From Stdlib Require Import List ZArith Bool Lia.
From Stdlib Require Import Floats.SpecFloat.
Import ListNotations.

Local Open Scope Z_scope.

(** ** Python strings *)

(** A Python [str]: the sequence of its code points. *)
Definition pystr := list Z.

Definition bytes_of_string (s : string) : list Z :=
  map (fun a => Z.of_N (N_of_ascii a)) (list_ascii_of_string s).

(** Reading of a UTF-8 source literal: [need] continuation bytes are still
    expected, [acc] holds the bits read so far. *)
Fixpoint utf8_read (bs : list Z) (need : nat) (acc : Z) : pystr :=
  match bs with
  | [] => []
  | b :: bs' =>
      match need with
      | O =>
          if b <? 128 then b :: utf8_read bs' 0 0
          else if b <? 224 then utf8_read bs' 1 (b - 192)
          else if b <? 240 then utf8_read bs' 2 (b - 224)
          else utf8_read bs' 3 (b - 240)
      | S O => (acc * 64 + (b - 128)) :: utf8_read bs' 0 0
      | S n => utf8_read bs' n (acc * 64 + (b - 128))
      end
  end.

(** [py "..."] is the Python string written between the quotes. *)
Definition py (s : string) : pystr := utf8_read (bytes_of_string s) 0 0.

Definition NL : Z := 10.

Fixpoint str_eqb (a b : pystr) : bool :=
  match a, b with
  | [], [] => true
  | x :: a', y :: b' => (x =? y) && str_eqb a' b'
  | _, _ => false
  end.

(** [s.startswith(p)] *)
Fixpoint startswith (p s : pystr) : bool :=
  match p, s with
  | [], _ => true
  | x :: p', y :: s' => (x =? y) && startswith p' s'
  | _ :: _, [] => false
  end.

(** ** Character classes

    [Py_UNICODE_ISSPACE] is a fixed set of 29 code points.  The decimal
    digits and the alphanumerics are tabulated for ASCII, for the Arabic
    letters U+0620..U+064A and for the Arabic-Indic digits U+0660..U+0669;
    the rest of the Unicode database is a parameter of the development. *)

Definition in_range (lo hi c : Z) : bool := (lo <=? c) && (c <=? hi).

Definition Py_UNICODE_ISSPACE (c : Z) : bool :=
  in_range 9 13 c || in_range 28 32 c || (c =? 133) || (c =? 160)
  || (c =? 5760) || in_range 8192 8202 c || (c =? 8232) || (c =? 8233)
  || (c =? 8239) || (c =? 8287) || (c =? 12288).

Definition tabulated (c : Z) : bool :=
  in_range 0 127 c || in_range 1568 1610 c || in_range 1632 1641 c.

(** ** [str] methods used by the script *)

Fixpoint lstrip (s : pystr) : pystr :=
  match s with
  | [] => []
  | c :: s' => if Py_UNICODE_ISSPACE c then lstrip s' else s
  end.

Definition rstrip (s : pystr) : pystr := rev (lstrip (rev s)).

(** [s.strip()] *)
Definition strip (s : pystr) : pystr := rstrip (lstrip s).

(** [s.replace(old, new)] for a non-empty [old]: occurrences are replaced
    from left to right and do not overlap; [skip] counts the characters
    of the current occurrence still to be dropped. *)
Fixpoint replace_from (old new s : pystr) (skip : nat) : pystr :=
  match s with
  | [] => []
  | c :: s' =>
      match skip with
      | S k => replace_from old new s' k
      | O =>
          if startswith old s
          then new ++ replace_from old new s' (length old - 1)
          else c :: replace_from old new s' 0
      end
  end.

Definition replace (old new s : pystr) : pystr := replace_from old new s 0.

(** A text that neither starts nor ends with a blank. *)
Definition no_blank_ends (s : pystr) : bool :=
  match s with
  | [] => true
  | c :: _ =>
      negb (Py_UNICODE_ISSPACE c) && negb (Py_UNICODE_ISSPACE (last s c))
  end.

(** ** Exceptions, console and output file *)

(** The exceptions of the model; all of them derive from [Exception]. *)
Inductive exn : Type :=
| ValueError
| AttributeError
| OSError
| UnicodeEncodeError
| APIError (code : Z).   (* raised by the client of the service *)

Inductive result (A : Type) : Type :=
| Return (a : A)
| Raise (e : exn).
Arguments Return {A} a.
Arguments Raise {A} e.

(** What [print] wrote. *)
Inductive message : Type :=
| NotPurchase                (* 'its not a purchase transaction' *)
| ApiError (e : exn)         (* f"Error calling OpenAI API: {e}" *)
| DataSaved (f : pystr)      (* f"Data saved to {filename}" *)
| ProcessError (e : exn).    (* f"Error processing SMS: {e}" *)

(** The world: the console, the bytes of data/transactions_analysis.json
    ([None] while the file does not exist), and whether the file can be
    opened for writing. *)
Record world : Type := World {
  console : list message;
  out_file : option (list Z);
  fs_writable : bool
}.

Definition M (A : Type) : Type := world -> result A * world.

Definition ret {A} (a : A) : M A := fun w => (Return a, w).
Definition raise {A} (e : exn) : M A := fun w => (Raise e, w).
Definition bind {A B} (c : M A) (k : A -> M B) : M B :=
  fun w =>
    match c w with
    | (Return a, w') => k a w'
    | (Raise e, w') => (Raise e, w')
    end.

Notation "x <- c ;; k" := (bind c (fun x => k))
  (at level 62, c at next level, right associativity).
Notation "c ;;; k" := (bind c (fun _ => k))
  (at level 62, right associativity).

(** [try: body / except Exception as e: handler e] *)
Definition try_except {A} (body : M A) (handler : exn -> M A) : M A :=
  fun w =>
    match body w with
    | (Return a, w') => (Return a, w')
    | (Raise e, w') => handler e w'
    end.

Definition print (m : message) : M unit :=
  fun w => (Return tt,
            World (console w ++ [m]) (out_file w) (fs_writable w)).

(** Lifts a computation that fails with [ValueError]. *)
Definition or_ValueError {A} (o : option A) : M A :=
  match o with
  | Some a => ret a
  | None => raise ValueError
  end.

(** What the call of the chat-completion service does: it returns a
    response whose first choice has the given content ([None] when the
    message has no content), or it raises. *)
Inductive completion : Type :=
| Completed (content : option pystr)
| Failed (e : exn).


(** The dict that the script builds, in the order of its keys. *)
Record transaction : Type := Transaction {
  Type_ : pystr;           (* "Type" *)
  Amount_SAR : spec_float; (* "Amount (SAR)" *)
  Vendor : pystr;          (* "Vendor" *)
  Category : pystr;        (* "Category" *)
  Card_Number : pystr;     (* "Card Number" *)
  Date : pystr;            (* "Date" *)
  Time : pystr             (* "Time" *)
}.

(** ** Sample values

    A Unicode database that has nothing beyond the tabulated blocks, an
    empty world, services and messages to run the program on. *)

Definition no_other_digits : Z -> option Z := fun _ => None.
Definition no_other_alnum : Z -> bool := fun _ => false.

Definition world0 : world := World [] None true.

Definition service_says (text : pystr) : pystr -> spec_float -> completion :=
  fun _ _ => Completed (Some text).
Definition service_down : pystr -> spec_float -> completion :=
  fun _ _ => Failed (APIError 503).

Definition repr_sample : spec_float -> pystr := fun _ => py "47.8".

(** The message of the comment that closes the script. *)
Definition sample_sms : pystr :=
  py "شراء" ++ [NL] ++ py "بطاقة:0510;مدى-ابل باي" ++ [NL] ++
  py "مبلغ:SAR 47.80" ++ [NL] ++ py "لدى:HALA MARK" ++ [NL] ++
  py "في:25-2-2 06:44".

(** A message whose vendor line comes last and holds a blank only. *)
Definition blank_vendor_sms : pystr :=
  py "شراء" ++ [NL] ++ py "بطاقة:0510;مدى-ابل باي" ++ [NL] ++
  py "مبلغ:SAR 47.80" ++ [NL] ++ py "في:25-2-2 06:44" ++ [NL] ++
  py "لدى: ".

(** The sample with month 13. *)
Definition month13_sms : pystr :=
  py "شراء" ++ [NL] ++ py "بطاقة:0510;مدى-ابل باي" ++ [NL] ++
  py "مبلغ:SAR 47.80" ++ [NL] ++ py "لدى:HALA MARK" ++ [NL] ++
  py "في:25-13-2 06:44".

(** The sample dated 99-2-2. *)
Definition year99_sms : pystr :=
  py "شراء" ++ [NL] ++ py "بطاقة:0510;مدى-ابل باي" ++ [NL] ++
  py "مبلغ:SAR 47.80" ++ [NL] ++ py "لدى:HALA MARK" ++ [NL] ++
  py "في:99-2-2 06:44".

(** The sample without its card line. *)
Definition no_card_sms : pystr :=
  py "شراء" ++ [NL] ++ py "مبلغ:SAR 47.80" ++ [NL] ++
  py "لدى:HALA MARK" ++ [NL] ++ py "في:25-2-2 06:44".

(** The records of [sample_sms] and of [year99_sms]. *)
Definition sample_record : transaction :=
  Transaction (py "شراء") (S754_finite false 6727251943384678 (-47))
              (py "HALA MARK") (py "Other") (py "0510")
              (py "2025-02-02") (py "06:44").
Definition year99_record : transaction :=
  Transaction (py "شراء") (S754_finite false 6727251943384678 (-47))
              (py "HALA MARK") (py "Other") (py "0510")
              (py "1999-02-02") (py "06:44").






(** A message of another kind. *)
Definition other_sms : pystr := py "Your OTP is 1234".

(** ** The program *)

Section Program.

(** Digit value of the decimal digits outside the tabulated blocks. *)
Variable ucd_decimal : Z -> option Z.
(** [str.isalnum] outside the tabulated blocks. *)
Variable ucd_alnum : Z -> bool.

(** [Py_UNICODE_TODECIMAL]: the digit value, if any; no blank is a
    digit. *)
Definition Py_UNICODE_TODECIMAL (c : Z) : option Z :=
  if in_range 48 57 c then Some (c - 48)
  else if in_range 1632 1641 c then Some (c - 1632)
  else if tabulated c || Py_UNICODE_ISSPACE c then None
  else match ucd_decimal c with
       | Some v => if in_range 0 9 v then Some v else None
       | None => None
       end.

Definition Py_UNICODE_ISDECIMAL (c : Z) : bool :=
  match Py_UNICODE_TODECIMAL c with Some _ => true | None => false end.

Definition Py_UNICODE_ISALNUM (c : Z) : bool :=
  Py_UNICODE_ISDECIMAL c
  || in_range 65 90 c || in_range 97 122 c || in_range 1568 1610 c
  || (negb (tabulated c) && ucd_alnum c).

(** ** Regular expressions ([re])

    The fragment of the pattern language that the script uses: literals,
    character sets, greedy bounded repetition of a character set,
    sequence, alternation, capturing groups and the anchor [^]. *)

Inductive charitem : Type :=
| CChar (c : Z)      (* a literal character *)
| CRange (lo hi : Z) (* [lo-hi] *)
| CDigit             (* \d *)
| CWord              (* \w *)
| CSpace.            (* \s *)

Definition charset := list charitem.

Inductive regex : Type :=
| RBol                                          (* ^ *)
| RLit (s : pystr)                              (* literal text *)
| RSet (cs : charset)                           (* one character of [cs] *)
| RRep (cs : charset) (lo : nat) (hi : option nat) (* [cs]{lo,hi}, greedy *)
| RSeq (r1 r2 : regex)
| RAlt (r1 r2 : regex)                          (* r1|r2 *)
| RGroup (g : nat) (r : regex).                 (* capturing group g *)

(** State of a match attempt: characters consumed so far, the text still
    to be read, and the groups captured so far (latest first). *)
Record mstate : Type := MState {
  m_pos : nat;
  m_rest : pystr;
  m_groups : list (nat * pystr)
}.

Definition advance (n : nat) (st : mstate) : mstate :=
  MState (m_pos st + n) (skipn n (m_rest st)) (m_groups st).

Definition set_group (g : nat) (s : pystr) (st : mstate) : mstate :=
  MState (m_pos st) (m_rest st) ((g, s) :: m_groups st).

Definition item_matches (i : charitem) (c : Z) : bool :=
  match i with
  | CChar x => c =? x
  | CRange lo hi => in_range lo hi c
  | CDigit => Py_UNICODE_ISDECIMAL c
  | CWord => Py_UNICODE_ISALNUM c || (c =? 95)
  | CSpace => Py_UNICODE_ISSPACE c
  end.

Definition in_set (cs : charset) (c : Z) : bool :=
  existsb (fun i => item_matches i c) cs.

(** Length of the longest run of [cs] characters at the head of [s], capped
    at [cap] when a cap is given. *)
Fixpoint run_length (cs : charset) (cap : option nat) (s : pystr) : nat :=
  match s with
  | [] => O
  | c :: s' =>
      if in_set cs c then
        match cap with
        | Some O => O
        | Some (S n) => S (run_length cs (Some n) s')
        | None => S (run_length cs None s')
        end
      else O
  end.

(** Greedy repetition: try [lo + d] characters, then [lo + d - 1], ...,
    down to [lo], until the continuation [k] accepts. *)
Fixpoint rep_try (st : mstate) (k : mstate -> option mstate)
    (lo d : nat) : option mstate :=
  match k (advance (lo + d) st) with
  | Some m => Some m
  | None =>
      match d with
      | O => None
      | S d' => rep_try st k lo d'
      end
  end.

(** Backtracking matcher: [rmatch r st k] matches [r] at [st] and hands
    each way of doing so to [k], in the priority order of [re]; the first
    one that [k] accepts is the result. *)
Fixpoint rmatch (r : regex) (st : mstate)
    (k : mstate -> option mstate) : option mstate :=
  match r with
  | RBol => if Nat.eqb (m_pos st) 0 then k st else None
  | RLit s =>
      if startswith s (m_rest st) then k (advance (length s) st)
      else None
  | RSet cs =>
      match m_rest st with
      | c :: _ => if in_set cs c then k (advance 1 st) else None
      | [] => None
      end
  | RRep cs lo hi =>
      let n := run_length cs hi (m_rest st) in
      if Nat.leb lo n then rep_try st k lo (n - lo) else None
  | RSeq r1 r2 => rmatch r1 st (fun st1 => rmatch r2 st1 k)
  | RAlt r1 r2 =>
      match rmatch r1 st k with
      | Some m => Some m
      | None => rmatch r2 st k
      end
  | RGroup g r1 =>
      rmatch r1 st (fun st1 =>
        k (set_group g (firstn (m_pos st1 - m_pos st) (m_rest st)) st1))
  end.

(** [re.match]: a match starting at the first character. *)
Definition re_match (r : regex) (s : pystr) : option mstate :=
  rmatch r (MState 0 s []) Some.

(** Leftmost match starting at offset [pos] or later; [s] is the text from
    [pos] on. *)
Fixpoint search_from (r : regex) (pos : nat) (s : pystr) : option mstate :=
  match rmatch r (MState pos s []) Some with
  | Some m => Some m
  | None =>
      match s with
      | [] => None
      | _ :: s' => search_from r (S pos) s'
      end
  end.

(** [re.search(r, s)]: a match object, or [None]. *)
Definition re_search (r : regex) (s : pystr) : option mstate :=
  search_from r 0 s.

Fixpoint assoc_group (g : nat) (gs : list (nat * pystr)) : option pystr :=
  match gs with
  | [] => None
  | (h, s) :: gs' => if Nat.eqb h g then Some s else assoc_group g gs'
  end.

(** The match object of a search, for a search that succeeds. *)
Definition found (o : option mstate) : mstate :=
  match o with
  | Some m => m
  | None => MState 0 [] []
  end.

(** [m.group(g)], with the empty string for a group that took no part. *)
Definition group (m : mstate) (g : nat) : pystr :=
  match assoc_group g (m_groups m) with
  | Some s => s
  | None => []
  end.

(** The patterns of [extract_transaction_details]. *)

Definition re_plus (cs : charset) : regex := RRep cs 1 None.
Definition re_times (cs : charset) (lo hi : nat) : regex := RRep cs lo (Some hi).

Notation "r1 '>>' r2" := (RSeq r1 r2) (at level 61, right associativity).

Definition purchase_marker : pystr := py "شراء".
Definition transfer_marker : pystr := py "بطاقة ائتمانية:تحويل".

(** r"^(شراء|بطاقة ائتمانية:تحويل)" *)
Definition type_re : regex :=
  RBol >> RGroup 1 (RAlt (RLit purchase_marker) (RLit transfer_marker)).

(** r"مبلغ:SAR ([\d.]+)" *)
Definition amount_re : regex :=
  RLit (py "مبلغ:SAR ") >> RGroup 1 (re_plus [CDigit; CChar 46]).

(** r"لدى:([\w\s]+)" *)
Definition vendor_re : regex :=
  RLit (py "لدى:") >> RGroup 1 (re_plus [CWord; CSpace]).

(** r"في:(\d{2}-\d{1,2}-\d{1,2})" *)
Definition date_re : regex :=
  RLit (py "في:") >>
  RGroup 1 (re_times [CDigit] 2 2 >> RLit (py "-") >>
            re_times [CDigit] 1 2 >> RLit (py "-") >> re_times [CDigit] 1 2).

(** r"في:[\d-]+ (\d{2}:\d{2})" *)
Definition time_re : regex :=
  RLit (py "في:") >> re_plus [CDigit; CChar 45] >> RLit (py " ") >>
  RGroup 1 (re_times [CDigit] 2 2 >> RLit (py ":") >> re_times [CDigit] 2 2).

(** r'بطاقة:(\d{4})' *)
Definition card_re : regex :=
  RLit (py "بطاقة:") >> RGroup 1 (re_times [CDigit] 4 4).

(** ** [int] and [float] on digit strings *)

(** [int(s, 10)] for a string of decimal digits, most significant first;
    [acc] is the value read so far. *)
Fixpoint int_digits (s : pystr) (acc : Z) : option Z :=
  match s with
  | [] => Some acc
  | c :: s' =>
      match Py_UNICODE_TODECIMAL c with
      | Some v => int_digits s' (acc * 10 + v)
      | None => None
      end
  end.

Definition int_of_str (s : pystr) : option Z :=
  match s with
  | [] => None
  | _ => int_digits s 0
  end.

(** Splits [s] at its first character for which [p] holds: the text
    before it and, when there is one, the text after it. *)
Fixpoint split_at (p : Z -> bool) (s : pystr) : pystr * option pystr :=
  match s with
  | [] => ([], None)
  | c :: s' =>
      if p c then ([], Some s')
      else let '(a, b) := split_at p s' in (c :: a, b)
  end.

(** A leading sign: whether it is [-], and the text after it. *)
Definition split_sign (s : pystr) : bool * pystr :=
  match s with
  | c :: s' =>
      if c =? 45 then (true, s')
      else if c =? 43 then (false, s')
      else (false, s)
  | [] => (false, [])
  end.

(** The binary64 number nearest to [m * 10^x] (ties to even), with the
    sign [neg]. *)
Definition float_of_decimal (neg : bool) (m x : Z) : spec_float :=
  match m with
  | Zpos p =>
      if 0 <=? x
      then SFdiv 53 1024 (S754_finite neg (Z.to_pos (m * 10 ^ x)) 0)
                 (S754_finite false 1 0)
      else SFdiv 53 1024 (S754_finite neg p 0)
                 (S754_finite false (Z.to_pos (10 ^ (- x))) 0)
  | _ => S754_zero neg
  end.

(** The value of an exponent part, [0] when there is none. *)
Definition exponent_of (e : option pystr) : option Z :=
  match e with
  | None => Some 0
  | Some t =>
      let '(neg, d) := split_sign t in
      match int_of_str d with
      | Some v => Some (if neg then - v else v)
      | None => None
      end
  end.

Definition is_dot (c : Z) : bool := c =? 46.
Definition is_e (c : Z) : bool := (c =? 101) || (c =? 69).

(** [float(s)] for a decimal literal: an optional sign, digits around at
    most one dot with a digit on one side at least, an optional exponent;
    every other string is a [ValueError] ([None]).  The blanks around the
    number, the underscores between digits and the words [inf] and [nan]
    that [float] also reads are left out: the script passes it the text
    captured by [[\d.]+] only. *)
Definition float_of_str (s : pystr) : option spec_float :=
  let '(neg, body) := split_sign s in
  let '(mant, e) := split_at is_e body in
  let '(ip, fp) := split_at is_dot mant in
  let fp' := match fp with Some f => f | None => [] end in
  match ip ++ fp' with
  | [] => None
  | ds =>
      match int_digits ds 0, exponent_of e with
      | Some m, Some x =>
          Some (float_of_decimal neg m (x - Z.of_nat (length fp')))
      | _, _ => None
      end
  end.

(** ** [pd.to_datetime(s, format="%y-%m-%d %H:%M")]

    The format is compiled to a pattern, one group per directive (1: [%y],
    2: [%m], 3: [%d], 4: [%H], 5: [%M]); a blank of the format stands for
    [\s+].  The whole string has to match. *)

Definition digit_range (lo hi : Z) : regex := RSet [CRange (48 + lo) (48 + hi)].
Definition any_digit : regex := RSet [CDigit].
Definition char_lit (c : Z) : regex := RLit [c].

(** (\d\d)-(1[0-2]|0[1-9]|[1-9])-(3[0-1]|[1-2]\d|0[1-9]|[1-9]| [1-9])\s+(2[0-3]|[0-1]\d|\d):([0-5]\d|\d);
    [strptime_rest] is what follows the group of [%y]. *)
Definition strptime_rest : regex :=
  char_lit 45 >>
  RGroup 2 (RAlt (char_lit 49 >> digit_range 0 2)
           (RAlt (char_lit 48 >> digit_range 1 9) (digit_range 1 9))) >>
  char_lit 45 >>
  RGroup 3 (RAlt (char_lit 51 >> digit_range 0 1)
           (RAlt (digit_range 1 2 >> any_digit)
           (RAlt (char_lit 48 >> digit_range 1 9)
           (RAlt (digit_range 1 9) (char_lit 32 >> digit_range 1 9))))) >>
  re_plus [CSpace] >>
  RGroup 4 (RAlt (char_lit 50 >> digit_range 0 3)
           (RAlt (digit_range 0 1 >> any_digit) any_digit)) >>
  char_lit 58 >>
  RGroup 5 (RAlt (digit_range 0 5 >> any_digit) any_digit).

Definition strptime_re : regex :=
  RGroup 1 (any_digit >> any_digit) >> strptime_rest.

(** A [Timestamp], to the minute. *)
Record datetime : Type := DateTime {
  year : Z; month : Z; day : Z; hour : Z; minute : Z
}.

Definition is_leap (y : Z) : bool :=
  (y mod 4 =? 0) && (negb (y mod 100 =? 0) || (y mod 400 =? 0)).

Definition days_in_month (y m : Z) : Z :=
  if m =? 2 then (if is_leap y then 29 else 28)
  else if (m =? 4) || (m =? 6) || (m =? 9) || (m =? 11) then 30
  else 31.

(** [%y]: values 0..68 are years 2000..2068, values 69..99 are 1969..1999. *)
Definition year_of_yy (yy : Z) : Z :=
  if yy <=? 68 then yy + 2000 else yy + 1900.

(** [int] of a directive; a blank before a day digit is skipped. *)
Definition int_field (s : pystr) : option Z := int_of_str (lstrip s).

(** The parsed time, or [None] where [to_datetime] raises [ValueError]. *)
Definition to_datetime (s : pystr) : option datetime :=
  match re_match strptime_re s with
  | None => None
  | Some m =>
      if negb (Nat.eqb (m_pos m) (length s)) then None
      else
        match int_field (group m 1), int_field (group m 2),
              int_field (group m 3), int_field (group m 4),
              int_field (group m 5) with
        | Some yy, Some mo, Some d, Some h, Some mi =>
            let y := year_of_yy yy in
            if (1 <=? d) && (d <=? days_in_month y mo)
            then Some (DateTime y mo d h mi)
            else None
        | _, _, _, _, _ => None
        end
  end.

Definition digit_char (n : Z) : Z := 48 + n mod 10.

(** ["%02d" % n] and ["%04d" % n] for [0 <= n < 100] and [0 <= n < 10000]. *)
Definition fmt_02d (n : Z) : pystr := [digit_char (n / 10); digit_char n].
Definition fmt_04d (n : Z) : pystr :=
  [digit_char (n / 1000); digit_char (n / 100); digit_char (n / 10);
   digit_char n].

(** [ts.date().isoformat()] *)
Definition date_isoformat (t : datetime) : pystr :=
  fmt_04d (year t) ++ [45] ++ fmt_02d (month t) ++ [45] ++ fmt_02d (day t).

(** ** [extract_transaction_details] *)

Definition date_marker_artifact : pystr := NL :: py "في".

Definition extract_transaction_details (text : pystr)
  : M (option transaction) :=
  match re_search type_re text with
  | None => print NotPurchase ;;; ret None
  | Some _ =>
      match re_search amount_re text, re_search vendor_re text,
            re_search date_re text, re_search time_re text,
            re_search type_re text, re_search card_re text with
      | Some amount_match, Some vendor_match, Some date_match,
        Some time_match, Some type_match, Some card_number_match =>
          let vendor :=
            replace date_marker_artifact [] (strip (group vendor_match 1)) in
          let date_str := group date_match 1 in
          let time_str := group time_match 1 in
          full_datetime <- or_ValueError
                             (to_datetime (date_str ++ py " " ++ time_str)) ;;
          amount <- or_ValueError (float_of_str (group amount_match 1)) ;;
          ret (Some (Transaction (group type_match 1) amount vendor
                                 (py "Other") (group card_number_match 1)
                                 (date_isoformat full_datetime) time_str))
      | _, _, _, _, _, _ => ret None
      end
  end.

(** ** [get_gpt_category] *)

(** The service: any function of the request. *)
Variable service : pystr -> spec_float -> completion.

Definition chat_completions_create (vendor : pystr) (amount : spec_float)
  : M (option pystr) :=
  match service vendor amount with
  | Completed c => ret c
  | Failed e => raise e
  end.

Definition valid_categories : list pystr :=
  [py "Food"; py "Shopping"; py "Transport"; py "Health"; py "Education";
   py "Utilities"; py "Entertainment"; py "Other"].

(** [s in valid_categories] *)
Definition is_valid_category (s : pystr) : bool :=
  existsb (str_eqb s) valid_categories.

Definition get_gpt_category (vendor : pystr) (amount : spec_float)
  : M pystr :=
  try_except
    (content <- chat_completions_create vendor amount ;;
     category <- match content with
                 | Some text => ret (strip text)
                 | None => raise AttributeError
                 end ;;
     ret (if is_valid_category category then category else py "Other"))
    (fun e => print (ApiError e) ;;; ret (py "Other")).

(** The label that corresponds to an outcome of the service call. *)
Definition label_of (c : completion) : pystr :=
  match c with
  | Completed (Some text) =>
      if is_valid_category (strip text) then strip text else py "Other"
  | Completed None => py "Other"
  | Failed _ => py "Other"
  end.

(** ** [analyze_transaction] *)

Definition set_Category (t : transaction) (c : pystr) : transaction :=
  Transaction (Type_ t) (Amount_SAR t) (Vendor t) c (Card_Number t)
              (Date t) (Time t).

Definition analyze_transaction (details : option transaction)
  : M (list transaction) :=
  match details with
  | Some t =>
      c <- get_gpt_category (Vendor t) (Amount_SAR t) ;;
      ret [set_Category t c]
  | None => ret []
  end.

(** ** [save_transactions_to_json]

    [json.dump(data, f, ensure_ascii=False, indent=4)] writes the chunks
    of the encoder one by one.  The digits of a float are those of
    [float.__repr__], a parameter of the development. *)

Variable float_repr : spec_float -> pystr.

Definition hex_digit (n : Z) : Z :=
  if n <? 10 then 48 + n else 87 + n.

(** The replacement of one character inside a JSON string. *)
Definition json_escape_char (c : Z) : pystr :=
  if c =? 34 then [92; 34]            (* the double quote *)
  else if c =? 92 then [92; 92]       (* the backslash *)
  else if c =? 10 then [92; 110]      (* \n *)
  else if c =? 13 then [92; 114]      (* \r *)
  else if c =? 9 then [92; 116]       (* \t *)
  else if c =? 8 then [92; 98]        (* \b *)
  else if c =? 12 then [92; 102]      (* \f *)
  else if in_range 0 31 c
       then [92; 117; 48; 48; hex_digit (c / 16); hex_digit (c mod 16)]
  else [c].

(** [py_encode_basestring]: the string between double quotes, escaped. *)
Definition encode_basestring (s : pystr) : pystr :=
  [34] ++ flat_map json_escape_char s ++ [34].

(** [_floatstr] with [allow_nan=True]. *)
Definition floatstr (f : spec_float) : pystr :=
  match f with
  | S754_nan => py "NaN"
  | S754_infinity false => py "Infinity"
  | S754_infinity true => py "-Infinity"
  | _ => float_repr f
  end.

Definition newline_indent (level : nat) : pystr :=
  NL :: repeat 32 (4 * level).

Inductive json_scalar : Type :=
| JStr (s : pystr)
| JFloat (f : spec_float).

Definition encode_scalar (v : json_scalar) : pystr :=
  match v with
  | JStr s => encode_basestring s
  | JFloat f => floatstr f
  end.

(** The items of the dict, in insertion order. *)
Definition items (t : transaction) : list (pystr * json_scalar) :=
  [(py "Type", JStr (Type_ t));
   (py "Amount (SAR)", JFloat (Amount_SAR t));
   (py "Vendor", JStr (Vendor t));
   (py "Category", JStr (Category t));
   (py "Card Number", JStr (Card_Number t));
   (py "Date", JStr (Date t));
   (py "Time", JStr (Time t))].

(** Chunks of the items of a dict at nesting [level]; [first] tells
    whether the item separator is still to be left out. *)
Fixpoint iterencode_items (its : list (pystr * json_scalar)) (level : nat)
    (first : bool) : list pystr :=
  match its with
  | [] => []
  | (key, value) :: its' =>
      (if first then [] else [[44] ++ newline_indent level]) ++
      [encode_basestring key; py ": "; encode_scalar value] ++
      iterencode_items its' level false
  end.

(** [_iterencode_dict] of a transaction inside a list at nesting [level]. *)
Definition iterencode_dict (t : transaction) (level : nat) : list pystr :=
  [py "{"; newline_indent (S level)] ++
  iterencode_items (items t) (S level) true ++
  [newline_indent level; py "}"].

Fixpoint iterencode_elems (data : list transaction) (first : bool)
  : list pystr :=
  match data with
  | [] => []
  | t :: data' =>
      [if first then py "[" ++ newline_indent 1
       else [44] ++ newline_indent 1] ++
      iterencode_dict t 1 ++ iterencode_elems data' false
  end.

(** [_iterencode_list] at the top level. *)
Definition iterencode (data : list transaction) : list pystr :=
  match data with
  | [] => [py "[]"]
  | _ => iterencode_elems data true ++ [newline_indent 0; py "]"]
  end.


(** UTF-8 of one code point; the surrogates have none. *)
Definition utf8_encode_char (c : Z) : option (list Z) :=
  if c <? 0 then None
  else if c <? 128 then Some [c]
  else if c <? 2048 then Some [192 + c / 64; 128 + c mod 64]
  else if in_range 55296 57343 c then None
  else if c <? 65536
       then Some [224 + c / 4096; 128 + (c / 64) mod 64; 128 + c mod 64]
  else if c <? 1114112
       then Some [240 + c / 262144; 128 + (c / 4096) mod 64;
                  128 + (c / 64) mod 64; 128 + c mod 64]
  else None.

Fixpoint utf8_encode (s : pystr) : option (list Z) :=
  match s with
  | [] => Some []
  | c :: s' =>
      match utf8_encode_char c, utf8_encode s' with
      | Some b, Some bs => Some (b ++ bs)
      | _, _ => None
      end
  end.

(** [f.write(chunk)] for each chunk: a chunk that cannot be encoded raises
    and leaves in the file what was written before it. *)
Fixpoint write_chunks (chunks : list pystr) (written : list Z)
  : result unit * list Z :=
  match chunks with
  | [] => (Return tt, written)
  | ch :: chunks' =>
      match utf8_encode ch with
      | Some b => write_chunks chunks' (written ++ b)
      | None => (Raise UnicodeEncodeError, written)
      end
  end.

Definition filename : pystr := py "data/transactions_analysis.json".

(** [with open(filename, "w", encoding="utf-8") as f: json.dump(...)]:
    opening truncates the file. *)
Definition open_and_dump (data : list transaction) : M unit :=
  fun w =>
    if fs_writable w then
      let '(r, bytes) := write_chunks (iterencode data) [] in
      (r, World (console w) (Some bytes) (fs_writable w))
    else (Raise OSError, w).

Definition save_transactions_to_json (data : list transaction) : M unit :=
  open_and_dump data ;;; print (DataSaved filename).

(** ** [process_sms_text] *)

Definition process_sms_text (sms_text : pystr)
  : M (option (list transaction)) :=
  try_except
    (transaction_details <- extract_transaction_details sms_text ;;
     tx <- analyze_transaction transaction_details ;;
     match tx with
     | _ :: _ => save_transactions_to_json tx ;;; ret (Some tx)
     | [] => ret None
     end)
    (fun e => print (ProcessError e) ;;; ret None).

(** ** Reading the file back: [json.load(open(filename, encoding="utf-8"))]

    The script only writes the file; what a reader gets from it is the
    subject of the round-trip property, so the decoder of the [json]
    module is modelled as well. *)








Definition hex_value (c : Z) : option Z :=
  if in_range 48 57 c then Some (c - 48)
  else if in_range 97 102 c then Some (c - 87)
  else if in_range 65 70 c then Some (c - 55)
  else None.

(** [_decode_uXXXX] *)
Definition decode_uXXXX (a b c d : Z) : option Z :=
  match hex_value a, hex_value b, hex_value c, hex_value d with
  | Some x, Some y, Some z, Some t => Some (((x * 16 + y) * 16 + z) * 16 + t)
  | _, _, _, _ => None
  end.

(** The character that follows a backslash, other than [u]. *)
Definition unescape (c : Z) : option Z :=
  if c =? 34 then Some 34
  else if c =? 92 then Some 92
  else if c =? 47 then Some 47
  else if c =? 98 then Some 8
  else if c =? 102 then Some 12
  else if c =? 110 then Some 10
  else if c =? 114 then Some 13
  else if c =? 116 then Some 9
  else None.

(** [scanstring] (strict): reads a string after its opening quote; gives
    the string and the text after the closing quote.  [acc] holds the
    characters read so far, latest first. *)
Fixpoint scanstring (s : pystr) (acc : pystr) : option (pystr * pystr) :=
  match s with
  | [] => None
  | c :: r =>
      if c =? 34 then Some (rev acc, r)
      else if c =? 92 then
        match r with
        | [] => None
        | e :: r1 =>
            if e =? 117 then
              match r1 with
              | h1 :: h2 :: h3 :: h4 :: r2 =>
                  match decode_uXXXX h1 h2 h3 h4 with
                  | None => None
                  | Some uni =>
                      if in_range 55296 56319 uni then
                        match r2 with
                        | b :: u :: g1 :: g2 :: g3 :: g4 :: r3 =>
                            if (b =? 92) && (u =? 117) then
                              match decode_uXXXX g1 g2 g3 g4 with
                              | None => None
                              | Some uni2 =>
                                  if in_range 56320 57343 uni2
                                  then scanstring r3
                                         ((65536 + (uni - 55296) * 1024
                                           + (uni2 - 56320)) :: acc)
                                  else scanstring r2 (uni :: acc)
                              end
                            else scanstring r2 (uni :: acc)
                        | _ => scanstring r2 (uni :: acc)
                        end
                      else scanstring r2 (uni :: acc)
                  end
              | _ => None
              end
            else
              match unescape e with
              | Some x => scanstring r1 (x :: acc)
              | None => None
              end
        end
      else if in_range 0 31 c then None
      else scanstring r (c :: acc)
  end.










(** The groups that a pattern can set. *)
Fixpoint groups_of (r : regex) : list nat :=
  match r with
  | RSeq r1 r2 => groups_of r1 ++ groups_of r2
  | RAlt r1 r2 => groups_of r1 ++ groups_of r2
  | RGroup g r1 => g :: groups_of r1
  | _ => []
  end.

(** [p in s] for strings: [p] occurs in [s]. *)
Fixpoint contains (p s : pystr) : bool :=
  startswith p s ||
  match s with
  | [] => false
  | _ :: s' => contains p s'
  end.

(** The groups that [r] cannot set are in [st'] as they are in [st]. *)
Definition keeps_groups (r : regex) (st st' : mstate) : Prop :=
  forall g, ~ In g (groups_of r) ->
            assoc_group g (m_groups st') = assoc_group g (m_groups st).













(** * Properties *)

(** ** The classifier *)

Lemma str_eqb_eq : forall a b, str_eqb a b = true <-> a = b.
Proof.
  induction a as [|x a IH]; destruct b as [|y b]; simpl;
    try (split; congruence).
  rewrite andb_true_iff, Z.eqb_eq, IH. split.
  - intros [-> ->]. reflexivity.
  - intros H. injection H as -> ->. auto.
Qed.

Lemma is_valid_category_In :
  forall s, is_valid_category s = true <-> In s valid_categories.
Proof.
  intros s. unfold is_valid_category. rewrite existsb_exists. split.
  - intros [x [Hin Heq]]. apply str_eqb_eq in Heq. subst. exact Hin.
  - intros Hin. exists s. split; [exact Hin | now apply str_eqb_eq].
Qed.

Lemma Other_valid : In (py "Other") valid_categories.
Proof. unfold valid_categories. simpl. tauto. Qed.

Lemma label_of_valid : forall c, In (label_of c) valid_categories.
Proof.
  intros [[text|]|e]; simpl; try apply Other_valid.
  destruct (is_valid_category (strip text)) eqn:E.
  - now apply is_valid_category_In.
  - apply Other_valid.
Qed.

Lemma get_gpt_category_run :
  forall vendor amount w,
    exists w',
      get_gpt_category vendor amount w
      = (Return (label_of (service vendor amount)), w')
      /\ out_file w' = out_file w /\ fs_writable w' = fs_writable w.
Proof.
  intros vendor amount w.
  unfold get_gpt_category, try_except, bind, chat_completions_create.
  destruct (service vendor amount) as [[text|]|e]; simpl;
    eexists; (split; [reflexivity | split; reflexivity]).
Qed.

(** C1: for every vendor, amount and behaviour of the service,
    [get_gpt_category] returns (it raises nothing), what it returns is one
    of the eight labels, and it is "Other" whenever the service call
    raised or its response carried no text. *)
Theorem get_gpt_category_returns_valid_label :
  forall vendor amount w,
    exists c w',
      get_gpt_category vendor amount w = (Return c, w')
      /\ In c valid_categories
      /\ match service vendor amount with
         | Failed _ => c = py "Other"
         | Completed None => c = py "Other"
         | Completed (Some _) => True
         end.
Proof.
  intros vendor amount w.
  destruct (get_gpt_category_run vendor amount w) as [w' [Hrun _]].
  exists (label_of (service vendor amount)), w'.
  split; [exact Hrun | split; [apply label_of_valid |]].
  destruct (service vendor amount) as [[text|]|e]; simpl; auto.
Qed.

(** ** The extractor *)

Lemma type_re_later : forall s pos, search_from type_re (S pos) s = None.
Proof.
  induction s as [|c s IH]; intros pos; simpl; [reflexivity | apply IH].
Qed.

Lemma type_re_unmatched :
  forall text,
    startswith purchase_marker text = false ->
    startswith transfer_marker text = false ->
    re_search type_re text = None.
Proof.
  intros text H1 H2. unfold re_search.
  assert (H0 : rmatch type_re (MState 0 text []) Some = None).
  { unfold type_re. cbn [rmatch m_pos m_rest Nat.eqb].
    rewrite H1, H2. reflexivity. }
  destruct text as [|c text]; cbn [search_from]; rewrite H0.
  - reflexivity.
  - apply type_re_later.
Qed.

(** C3: a text that starts with neither type marker gives no record:
    [extract_transaction_details] prints its notice and returns [None]. *)
Theorem extract_rejects_other_types :
  forall text w,
    startswith purchase_marker text = false ->
    startswith transfer_marker text = false ->
    extract_transaction_details text w
    = (Return None,
       World (console w ++ [NotPurchase]) (out_file w) (fs_writable w)).
Proof.
  intros text w H1 H2. unfold extract_transaction_details.
  rewrite (type_re_unmatched text H1 H2). reflexivity.
Qed.

(** C4: when the type marker matches and one of the amount, vendor, date,
    time and card patterns is found nowhere in the text,
    [extract_transaction_details] returns [None], and does nothing else. *)
Theorem extract_needs_all_fields :
  forall text w,
    re_search type_re text <> None ->
    re_search amount_re text = None \/ re_search vendor_re text = None \/
    re_search date_re text = None \/ re_search time_re text = None \/
    re_search card_re text = None ->
    extract_transaction_details text w = (Return None, w).
Proof.
  intros text w Hty Hmiss. unfold extract_transaction_details.
  destruct (re_search type_re text) as [ty|]; [|congruence].
  destruct (re_search amount_re text) as [am|];
    destruct (re_search vendor_re text) as [vm|];
    destruct (re_search date_re text) as [dm|];
    destruct (re_search time_re text) as [tm|];
    destruct (re_search card_re text) as [cm|];
    try reflexivity.
  destruct Hmiss as [H|[H|[H|[H|H]]]]; discriminate H.
Qed.

(** C6: when the six patterns match and the captured date and time do not
    parse under "%y-%m-%d %H:%M", [extract_transaction_details] raises
    [ValueError]; [process_sms_text] catches it, reports it and returns
    [None], and the output file is as it was. *)
Theorem unparsable_date_raises_and_is_caught :
  forall text w ty am vm dm tm cm,
    re_search type_re text = Some ty ->
    re_search amount_re text = Some am ->
    re_search vendor_re text = Some vm ->
    re_search date_re text = Some dm ->
    re_search time_re text = Some tm ->
    re_search card_re text = Some cm ->
    to_datetime (group dm 1 ++ py " " ++ group tm 1) = None ->
    extract_transaction_details text w = (Raise ValueError, w)
    /\ process_sms_text text w
       = (Return None,
          World (console w ++ [ProcessError ValueError]) (out_file w)
                (fs_writable w)).
Proof.
  intros text w ty am vm dm tm cm Hty Ham Hvm Hdm Htm Hcm Hdt.
  assert (He : extract_transaction_details text w = (Raise ValueError, w)).
  { unfold extract_transaction_details.
    rewrite Hty, Ham, Hvm, Hdm, Htm, Hcm.
    unfold bind. rewrite Hdt. reflexivity. }
  split; [exact He|].
  unfold process_sms_text, try_except, bind. rewrite He. reflexivity.
Qed.

(** C7: when extraction gives no record, whether it returned [None] or
    raised, [process_sms_text] returns [None] and the output file keeps
    the content it had. *)
Theorem process_without_record_leaves_file :
  forall text w,
    (forall t, fst (extract_transaction_details text w) <> Return (Some t)) ->
    fst (process_sms_text text w) = Return None
    /\ out_file (snd (process_sms_text text w)) = out_file w.
Proof.
  intros text w Hnone.
  assert (Hfile : out_file (snd (extract_transaction_details text w))
                  = out_file w).
  { unfold extract_transaction_details.
    destruct (re_search type_re text); [|reflexivity].
    destruct (re_search amount_re text); [|reflexivity].
    destruct (re_search vendor_re text); [|reflexivity].
    destruct (re_search date_re text); [|reflexivity].
    destruct (re_search time_re text); [|reflexivity].
    destruct (re_search card_re text); [|reflexivity].
    unfold bind, or_ValueError.
    destruct (to_datetime _); [|reflexivity].
    destruct (float_of_str _); reflexivity. }
  unfold process_sms_text, try_except, bind.
  destruct (extract_transaction_details text w) as [[[t|]|e] w1];
    simpl in *.
  - exfalso. apply (Hnone t). reflexivity.
  - split; [reflexivity | exact Hfile].
  - split; [reflexivity | exact Hfile].
Qed.

(** C2: on the message of the script's closing comment,
    [extract_transaction_details] returns the record with Type "شراء",
    Amount 47.8 (the binary64 number 0x1.7e66666666666p+5), Vendor
    "HALA MARK", Category "Other", Card Number "0510", Date "2025-02-02"
    and Time "06:44", and it prints nothing. *)
Theorem extract_sample_sms :
  forall w,
    extract_transaction_details sample_sms w
    = (Return (Some (Transaction (py "شراء")
                       (S754_finite false 6727251943384678 (-47))
                       (py "HALA MARK") (py "Other") (py "0510")
                       (py "2025-02-02") (py "06:44"))),
       w).
Proof. intros w. vm_compute. reflexivity. Qed.

(** *** Groups of a match *)

Lemma rep_try_some :
  forall st k lo d m,
    rep_try st k lo d = Some m ->
    exists j, k (advance j st) = Some m.
Proof.
  intros st k lo d. induction d as [|d IH]; intros m H; simpl in H.
  - destruct (k (advance (lo + 0) st)) eqn:E; [|discriminate].
    exists (lo + 0)%nat. congruence.
  - destruct (k (advance (lo + S d) st)) eqn:E.
    + exists (lo + S d)%nat. congruence.
    + apply IH. exact H.
Qed.

(** A successful match hands to its continuation a state in which the
    groups that the pattern cannot set are as they were. *)
Lemma rmatch_keeps_groups :
  forall r st k m,
    rmatch r st k = Some m ->
    exists st', k st' = Some m /\ keeps_groups r st st'.
Proof.
  induction r as [|s|cs|cs lo hi|r1 IH1 r2 IH2|r1 IH1 r2 IH2|g r1 IH1];
    intros st k m H; cbn [rmatch] in H.
  - destruct (Nat.eqb (m_pos st) 0); [|discriminate].
    exists st. split; [exact H | intros g _; reflexivity].
  - destruct (startswith s (m_rest st)); [|discriminate].
    eexists. split; [exact H | intros g _; reflexivity].
  - destruct (m_rest st) as [|c rest]; [discriminate|].
    destruct (in_set cs c); [|discriminate].
    eexists. split; [exact H | intros g _; reflexivity].
  - destruct (Nat.leb lo (run_length cs hi (m_rest st))); [|discriminate].
    apply rep_try_some in H. destruct H as [j Hj].
    eexists. split; [exact Hj | intros g _; reflexivity].
  - apply IH1 in H. destruct H as [st1 [H K1]].
    apply IH2 in H. destruct H as [st2 [H K2]].
    exists st2. split; [exact H|].
    intros g Hg. cbn [groups_of] in Hg. rewrite in_app_iff in Hg.
    rewrite K2, K1; tauto.
  - destruct (rmatch r1 st k) eqn:E.
    + injection H as ->. apply IH1 in E. destruct E as [st1 [E K1]].
      exists st1. split; [exact E|].
      intros g Hg. cbn [groups_of] in Hg. rewrite in_app_iff in Hg.
      apply K1. tauto.
    + apply IH2 in H. destruct H as [st2 [H K2]].
      exists st2. split; [exact H|].
      intros g Hg. cbn [groups_of] in Hg. rewrite in_app_iff in Hg.
      apply K2. tauto.
  - apply IH1 in H. destruct H as [st1 [H K1]].
    eexists. split; [exact H|].
    intros g' Hg. cbn [groups_of] in Hg. simpl in Hg.
    unfold set_group. cbn [m_groups assoc_group].
    destruct (Nat.eqb g g') eqn:E.
    + apply Nat.eqb_eq in E. tauto.
    + apply K1. tauto.
Qed.

Lemma in_set_digit :
  forall c, in_set [CDigit] c = true -> exists v, Py_UNICODE_TODECIMAL c = Some v.
Proof.
  intros c H. unfold in_set in H. cbn [existsb item_matches] in H.
  rewrite orb_false_r in H. unfold Py_UNICODE_ISDECIMAL in H.
  destruct (Py_UNICODE_TODECIMAL c) as [v|]; [eauto | discriminate].
Qed.

(** The group of [%y] holds the first two characters of the text, two
    digits. *)
Lemma strptime_year_group :
  forall c1 c2 rest m,
    re_match strptime_re (c1 :: c2 :: rest) = Some m ->
    group m 1 = [c1; c2]
    /\ exists v1, Py_UNICODE_TODECIMAL c1 = Some v1.
Proof.
  intros c1 c2 rest m H. unfold re_match, strptime_re, any_digit in H.
  cbn [rmatch m_rest m_pos advance skipn] in H.
  destruct (in_set [CDigit] c1) eqn:D1; [|discriminate].
  destruct (in_set [CDigit] c2); [|discriminate].
  apply rmatch_keeps_groups in H. destruct H as [st' [H K]].
  injection H as ->. split; [|now apply in_set_digit].
  unfold group. rewrite (K 1%nat).
  - reflexivity.
  - vm_compute. intros [H|[H|[H|[H|[]]]]]; discriminate H.
Qed.

Lemma isspace_spec :
  forall c,
    Py_UNICODE_ISSPACE c = true <->
    (9 <= c <= 13 \/ 28 <= c <= 32 \/ c = 133 \/ c = 160 \/ c = 5760
     \/ 8192 <= c <= 8202 \/ c = 8232 \/ c = 8233 \/ c = 8239
     \/ c = 8287 \/ c = 12288).
Proof.
  intros c. unfold Py_UNICODE_ISSPACE, in_range.
  rewrite !orb_true_iff, !andb_true_iff, !Z.leb_le, !Z.eqb_eq. tauto.
Qed.

Lemma in_range_spec : forall lo hi c, in_range lo hi c = true <-> lo <= c <= hi.
Proof.
  intros. unfold in_range. rewrite andb_true_iff, !Z.leb_le. tauto.
Qed.

Lemma decimal_not_space :
  forall c v, Py_UNICODE_TODECIMAL c = Some v -> Py_UNICODE_ISSPACE c = false.
Proof.
  intros c v H. unfold Py_UNICODE_TODECIMAL in H.
  destruct (Py_UNICODE_ISSPACE c) eqn:Esp; [|reflexivity].
  apply isspace_spec in Esp.
  destruct (in_range 48 57 c) eqn:E1.
  { apply in_range_spec in E1. lia. }
  destruct (in_range 1632 1641 c) eqn:E2.
  { apply in_range_spec in E2. lia. }
  rewrite orb_true_r in H. discriminate.
Qed.

Lemma to_datetime_year :
  forall c1 c2 rest dt,
    to_datetime (c1 :: c2 :: rest) = Some dt ->
    exists yy, int_of_str [c1; c2] = Some yy /\ year dt = year_of_yy yy.
Proof.
  intros c1 c2 rest dt H. unfold to_datetime in H.
  destruct (re_match strptime_re (c1 :: c2 :: rest)) as [m|] eqn:E;
    [|discriminate].
  apply strptime_year_group in E. destruct E as [E [v1 D1]].
  rewrite E in H.
  destruct (negb _); [discriminate|].
  destruct (int_field [c1; c2]) as [yy|] eqn:Ey; [|discriminate].
  destruct (int_field (group m 2)) as [mo|]; [|discriminate].
  destruct (int_field (group m 3)) as [d|]; [|discriminate].
  destruct (int_field (group m 4)) as [h|]; [|discriminate].
  destruct (int_field (group m 5)) as [mi|]; [|discriminate].
  destruct (_ && _); [|discriminate].
  injection H as <-. exists yy. split; [|reflexivity].
  unfold int_field in Ey. cbn [lstrip] in Ey.
  rewrite (decimal_not_space c1 v1 D1) in Ey. exact Ey.
Qed.

(** C10: when the first two characters of the captured date are digits
    that read as a number from 69 to 99, the Date of the record that
    [extract_transaction_details] returns is the date of a day of the
    year 1900 plus that number, so it starts with "19" and these two
    digits. *)
Theorem two_digit_year_from_69_is_19xx :
  forall text w w' t dm c1 c2 rest yy,
    extract_transaction_details text w = (Return (Some t), w') ->
    re_search date_re text = Some dm ->
    group dm 1 = c1 :: c2 :: rest ->
    int_of_str [c1; c2] = Some yy ->
    69 <= yy <= 99 ->
    exists dt,
      Date t = date_isoformat dt
      /\ year dt = 1900 + yy
      /\ firstn 5 (Date t)
         = [49; 57; digit_char (yy / 10); digit_char yy; 45].
Proof.
  intros text w w' t dm c1 c2 rest yy Hex Hdm Hg Hyy Hrange.
  unfold extract_transaction_details in Hex. rewrite Hdm in Hex.
  destruct (re_search type_re text) as [ty|];
    [|cbv in Hex; discriminate].
  destruct (re_search amount_re text) as [am|]; [|discriminate].
  destruct (re_search vendor_re text) as [vm|]; [|discriminate].
  destruct (re_search time_re text) as [tm|]; [|discriminate].
  destruct (re_search card_re text) as [cm|]; [|discriminate].
  unfold bind, or_ValueError in Hex. rewrite Hg in Hex.
  cbn [app] in Hex.
  destruct (to_datetime _) as [dt|] eqn:Edt; [|discriminate].
  cbn [ret] in Hex.
  destruct (float_of_str _) as [amount|]; [|discriminate].
  unfold ret in Hex. injection Hex as <- _.
  apply to_datetime_year in Edt. destruct Edt as [yy' [Hyy' Hy]].
  rewrite Hyy in Hyy'. injection Hyy' as <-.
  assert (Hyear : year dt = 1900 + yy).
  { rewrite Hy. unfold year_of_yy.
    destruct (yy <=? 68) eqn:E; [apply Z.leb_le in E; lia | lia]. }
  exists dt. cbn [Date]. split; [reflexivity | split; [exact Hyear|]].
  unfold date_isoformat, fmt_04d. cbn [app firstn]. rewrite Hyear.
  unfold digit_char.
  replace ((1900 + yy) / 1000) with 1
    by (apply Z.div_unique with (r := 900 + yy); lia).
  replace ((1900 + yy) / 100) with 19
    by (apply Z.div_unique with (r := yy); lia).
  replace ((1900 + yy) / 10) with (190 + yy / 10)
    by (rewrite <- (Z.div_add_l 190 10 yy) by lia; f_equal; lia).
  replace ((190 + yy / 10) mod 10) with ((yy / 10) mod 10)
    by (replace (190 + yy / 10) with (yy / 10 + 19 * 10) by lia;
        now rewrite Z.mod_add by lia).
  replace ((1900 + yy) mod 10) with (yy mod 10)
    by (replace (1900 + yy) with (yy + 190 * 10) by lia;
        now rewrite Z.mod_add by lia).
  reflexivity.
Qed.

(** *** The vendor *)

Lemma lstrip_split :
  forall s, exists ws,
    s = ws ++ lstrip s /\ forallb Py_UNICODE_ISSPACE ws = true.
Proof.
  induction s as [|c s [ws [H1 H2]]]; simpl.
  - exists []. split; reflexivity.
  - destruct (Py_UNICODE_ISSPACE c) eqn:E.
    + exists (c :: ws). simpl. rewrite E, H2. split; [congruence|reflexivity].
    + exists []. split; reflexivity.
Qed.

Lemma lstrip_head :
  forall s c r, lstrip s = c :: r -> Py_UNICODE_ISSPACE c = false.
Proof.
  induction s as [|x s IH]; simpl; intros c r H; [discriminate|].
  destruct (Py_UNICODE_ISSPACE x) eqn:E; [eauto|].
  injection H as <- _. exact E.
Qed.

Lemma lstrip_nil_iff :
  forall s, lstrip s = [] <-> forallb Py_UNICODE_ISSPACE s = true.
Proof.
  induction s as [|x s IH]; simpl; [tauto|].
  destruct (Py_UNICODE_ISSPACE x); simpl; [exact IH|].
  split; discriminate.
Qed.

Lemma rstrip_split :
  forall s, exists ws,
    s = rstrip s ++ ws /\ forallb Py_UNICODE_ISSPACE ws = true.
Proof.
  intros s. unfold rstrip.
  destruct (lstrip_split (rev s)) as [ws [H1 H2]].
  exists (rev ws). split.
  - rewrite <- rev_app_distr, <- H1, rev_involutive. reflexivity.
  - rewrite forallb_forall in *. intros x Hx. apply H2.
    now apply in_rev.
Qed.

Lemma strip_head :
  forall s c r, strip s = c :: r -> Py_UNICODE_ISSPACE c = false.
Proof.
  intros s c r H. unfold strip in H.
  destruct (rstrip_split (lstrip s)) as [ws [H1 _]].
  rewrite H in H1. simpl in H1. eapply lstrip_head. exact H1.
Qed.

Lemma strip_nil_iff :
  forall s, strip s = [] <-> forallb Py_UNICODE_ISSPACE s = true.
Proof.
  intros s. rewrite <- lstrip_nil_iff. unfold strip. split.
  - intros H. destruct (rstrip_split (lstrip s)) as [ws [H1 H2]].
    rewrite H in H1. simpl in H1.
    destruct (lstrip s) as [|c r] eqn:E; [reflexivity|].
    apply lstrip_head in E. subst ws. simpl in H2. rewrite E in H2.
    discriminate.
  - intros ->. reflexivity.
Qed.

Lemma lstrip_blanks :
  forall ws x,
    forallb Py_UNICODE_ISSPACE ws = true -> lstrip (ws ++ x) = lstrip x.
Proof.
  induction ws as [|c ws IH]; intros x H; [reflexivity|].
  simpl in H. apply andb_true_iff in H. destruct H as [Hc Hws].
  cbn [app lstrip]. rewrite Hc. now apply IH.
Qed.

Lemma rev_last_first :
  forall (c : Z) (l : list Z),
    rev (c :: l) = last (c :: l) c :: rev (removelast (c :: l)).
Proof.
  intros c l.
  rewrite (app_removelast_last c (l := c :: l)) at 1 by discriminate.
  rewrite rev_app_distr. reflexivity.
Qed.

(** [strip] takes the blanks off both ends, and nothing else. *)
Lemma strip_blanks_around :
  forall lead core trail,
    forallb Py_UNICODE_ISSPACE lead = true ->
    forallb Py_UNICODE_ISSPACE trail = true ->
    no_blank_ends core = true ->
    strip (lead ++ core ++ trail) = core.
Proof.
  intros lead core trail Hl Ht Hc. unfold strip.
  rewrite (lstrip_blanks lead _ Hl).
  destruct core as [|c core].
  - cbn [app]. apply lstrip_nil_iff in Ht. rewrite Ht. reflexivity.
  - unfold no_blank_ends in Hc. apply andb_true_iff in Hc.
    destruct Hc as [H1 H2]. apply negb_true_iff in H1, H2.
    cbn [app lstrip]. rewrite H1. unfold rstrip.
    change (c :: core ++ trail) with ((c :: core) ++ trail).
    rewrite rev_app_distr, lstrip_blanks.
    + rewrite rev_last_first. cbn [lstrip]. rewrite H2.
      rewrite <- rev_last_first. apply rev_involutive.
    + rewrite forallb_forall in *. intros x Hx. apply Ht. now apply in_rev.
Qed.

(** Every text is a trimmed text between two runs of blanks. *)
Lemma blanks_around_every_text :
  forall text, exists lead core trail,
    text = lead ++ core ++ trail
    /\ forallb Py_UNICODE_ISSPACE lead = true
    /\ forallb Py_UNICODE_ISSPACE trail = true
    /\ no_blank_ends core = true.
Proof.
  intros text.
  destruct (lstrip_split text) as [lead [H1 Hl]].
  destruct (rstrip_split (lstrip text)) as [trail [H2 Ht]].
  exists lead, (rstrip (lstrip text)), trail.
  split; [congruence|]. split; [exact Hl|]. split; [exact Ht|].
  destruct (rstrip (lstrip text)) as [|c r] eqn:E; [reflexivity|].
  unfold no_blank_ends. apply andb_true_iff. split; apply negb_true_iff.
  - cbn [app] in H2. eapply lstrip_head. exact H2.
  - unfold rstrip in E.
    destruct (lstrip (rev (lstrip text))) as [|d z] eqn:Ez;
      [discriminate|].
    apply lstrip_head in Ez. cbn [rev] in E. rewrite <- E.
    rewrite last_last. exact Ez.
Qed.

(** C9: when the service returns text, [get_gpt_category] takes the
    blanks off its two ends and gives what is left if that is, character
    for character, one of the eight labels, and "Other" if it is not. *)
Theorem get_gpt_category_exact_membership :
  forall vendor amount lead core trail w,
    service vendor amount = Completed (Some (lead ++ core ++ trail)) ->
    forallb Py_UNICODE_ISSPACE lead = true ->
    forallb Py_UNICODE_ISSPACE trail = true ->
    no_blank_ends core = true ->
    (In core valid_categories ->
     get_gpt_category vendor amount w = (Return core, w))
    /\ (~ In core valid_categories ->
        get_gpt_category vendor amount w = (Return (py "Other"), w)).
Proof.
  intros vendor amount lead core trail w Hs Hl Ht Hc.
  unfold get_gpt_category, try_except, bind, chat_completions_create.
  rewrite Hs. cbn [ret]. rewrite (strip_blanks_around lead core trail Hl Ht Hc).
  destruct (is_valid_category core) eqn:E; split; intros H;
    try reflexivity.
  - apply is_valid_category_In in E. contradiction.
  - apply is_valid_category_In in H. rewrite H in E. discriminate E.
Qed.

Lemma date_marker_artifact_chars : date_marker_artifact = [NL; 1601; 1610].
Proof. reflexivity. Qed.

Lemma artifact_starts_with_blank :
  forall c s,
    startswith date_marker_artifact (c :: s) = true ->
    Py_UNICODE_ISSPACE c = true.
Proof.
  intros c s H. unfold date_marker_artifact in H. cbn [startswith] in H.
  apply andb_true_iff in H. destruct H as [H _].
  apply Z.eqb_eq in H. subst c. reflexivity.
Qed.

Lemma replace_artifact_head :
  forall c s,
    Py_UNICODE_ISSPACE c = false ->
    replace date_marker_artifact [] (c :: s)
    = c :: replace_from date_marker_artifact [] s 0.
Proof.
  intros c s H. unfold replace. cbn [replace_from].
  destruct (startswith date_marker_artifact (c :: s)) eqn:E; [|reflexivity].
  apply artifact_starts_with_blank in E. congruence.
Qed.

Lemma no_newline_unchanged :
  forall s, ~ In NL s -> replace_from date_marker_artifact [] s 0 = s.
Proof.
  induction s as [|c s IH]; intros H; [reflexivity|].
  cbn [replace_from].
  destruct (startswith date_marker_artifact (c :: s)) eqn:E.
  - exfalso. apply H. left. unfold date_marker_artifact in E.
    cbn [startswith] in E. apply andb_true_iff in E. destruct E as [E _].
    apply Z.eqb_eq in E. congruence.
  - f_equal. apply IH. intros Hin. apply H. now right.
Qed.

Lemma no_newline_no_artifact :
  forall s, ~ In NL s -> contains date_marker_artifact s = false.
Proof.
  induction s as [|c s IH]; intros H; [reflexivity|].
  cbn [contains]. rewrite IH by (intros Hin; apply H; now right).
  rewrite orb_false_r. unfold date_marker_artifact. cbn [startswith].
  destruct (NL =? c) eqn:E; [|reflexivity].
  apply Z.eqb_eq in E. exfalso. apply H. left. congruence.
Qed.

(** With one line break at most, no artifact is left. *)
Lemma single_newline_artifact_removed :
  forall s,
    (count_occ Z.eq_dec s NL <= 1)%nat ->
    contains date_marker_artifact
             (replace_from date_marker_artifact [] s 0) = false.
Proof.
  induction s as [|c s IH]; intros H; [reflexivity|].
  cbn [count_occ] in H. destruct (Z.eq_dec c NL) as [->|Hc].
  - assert (Hs : ~ In NL s).
    { apply (count_occ_not_In Z.eq_dec). lia. }
    cbn [replace_from].
    destruct (startswith date_marker_artifact (NL :: s)) eqn:E.
    + rewrite date_marker_artifact_chars in *.
      destruct s as [|a [|b s'']];
        [cbn in E; discriminate
        |cbn [startswith] in E; rewrite !andb_false_r in E; discriminate|].
      cbn [app length Nat.sub replace_from].
      rewrite <- date_marker_artifact_chars.
      assert (Hs'' : ~ In NL s'') by (intros Hin; apply Hs; right; now right).
      rewrite (no_newline_unchanged s'' Hs'').
      now apply no_newline_no_artifact.
    + rewrite (no_newline_unchanged s Hs). cbn [contains].
      rewrite E. now apply no_newline_no_artifact.
  - cbn [replace_from].
    destruct (startswith date_marker_artifact (c :: s)) eqn:E.
    + exfalso. unfold date_marker_artifact in E. cbn [startswith] in E.
      apply andb_true_iff in E. destruct E as [E _].
      apply Z.eqb_eq in E. congruence.
    + cbn [contains]. rewrite (IH H), orb_false_r.
      unfold date_marker_artifact. cbn [startswith].
      destruct (NL =? c) eqn:E'; [|reflexivity].
      apply Z.eqb_eq in E'. congruence.
Qed.

(** C5, as the code has it: the Vendor of a returned record is the
    captured text, trimmed and then without the occurrences of a line
    break followed by "في"; it starts with no blank; it is empty exactly
    when the captured text is made of blanks; and it holds no line break
    followed by "في" when the trimmed capture has one line break at most. *)
Theorem vendor_of_returned_record :
  forall text w w' t,
    extract_transaction_details text w = (Return (Some t), w') ->
    exists vm,
      re_search vendor_re text = Some vm
      /\ Vendor t = replace date_marker_artifact [] (strip (group vm 1))
      /\ (forall c r, Vendor t = c :: r -> Py_UNICODE_ISSPACE c = false)
      /\ (Vendor t = [] <-> forallb Py_UNICODE_ISSPACE (group vm 1) = true)
      /\ ((count_occ Z.eq_dec (strip (group vm 1)) NL <= 1)%nat ->
          contains date_marker_artifact (Vendor t) = false).
Proof.
  intros text w w' t Hex. unfold extract_transaction_details in Hex.
  destruct (re_search type_re text) as [ty|];
    [|cbv in Hex; discriminate].
  destruct (re_search amount_re text) as [am|]; [|discriminate].
  destruct (re_search vendor_re text) as [vm|]; [|discriminate].
  destruct (re_search date_re text) as [dm|]; [|discriminate].
  destruct (re_search time_re text) as [tm|]; [|discriminate].
  destruct (re_search card_re text) as [cm|]; [|discriminate].
  unfold bind, or_ValueError in Hex.
  destruct (to_datetime _) as [dt|]; [|discriminate].
  cbn [ret] in Hex.
  destruct (float_of_str _) as [amount|]; [|discriminate].
  unfold ret in Hex. injection Hex as <- _.
  exists vm. cbn [Vendor]. split; [reflexivity | split; [reflexivity|]].
  destruct (strip (group vm 1)) as [|c r] eqn:Es.
  - split; [discriminate | split].
    + split; [intros _; now apply strip_nil_iff | reflexivity].
    + reflexivity.
  - pose proof (strip_head _ _ _ Es) as Hc.
    rewrite (replace_artifact_head c r Hc). split; [|split].
    + intros c' r' H. injection H as <- _. exact Hc.
    + split; [discriminate|]. intros H. apply strip_nil_iff in H.
      congruence.
    + intros H. rewrite <- (replace_artifact_head c r Hc).
      now apply single_newline_artifact_removed.
Qed.

(** ** The matcher *)














(** *** Text after a match

    Characters that the pattern blocks, when they follow the text, leave
    the match as it is. *)







(** ** The file *)















(** ** The decoder on what the encoder writes *)





Lemma scanstring_escape :
  forall e x r acc,
    (e =? 117) = false -> unescape e = Some x ->
    scanstring (92 :: e :: r) acc = scanstring r (x :: acc).
Proof.
  intros e x r acc H1 H2. cbn [scanstring].
  change (92 =? 34) with false. change (92 =? 92) with true. cbv iota.
  now rewrite H1, H2.
Qed.

Lemma scanstring_u :
  forall h1 h2 h3 h4 uni r acc,
    decode_uXXXX h1 h2 h3 h4 = Some uni ->
    in_range 55296 56319 uni = false ->
    scanstring (92 :: 117 :: h1 :: h2 :: h3 :: h4 :: r) acc
    = scanstring r (uni :: acc).
Proof.
  intros h1 h2 h3 h4 uni r acc H1 H2. cbn [scanstring].
  change (92 =? 34) with false. change (92 =? 92) with true.
  change (117 =? 117) with true. cbv iota.
  now rewrite H1, H2.
Qed.




(** *** Numbers *)






(** *** What the encoder writes can be stored and read as it is *)









(** *** The steps of the decoder *)





















(** ** What a match captures *)










(** ** The fields of a returned record *)










(** ** Classification and persistence of a record *)





(** ** A successful run *)















End Program.

(** * The properties on sample runs *)

Lemma get_gpt_category_exact_membership_witness :
  get_gpt_category (service_says (py " " ++ py "Food" ++ [NL]))
                   (py "HALA MARK") (S754_zero false) world0
  = (Return (py "Food"), world0)
  /\ get_gpt_category (service_says ([] ++ py "Groceries" ++ []))
                       (py "HALA MARK") (S754_zero false) world0
     = (Return (py "Other"), world0).
Proof.
  split.
  - apply (proj1 (get_gpt_category_exact_membership
                    (service_says (py " " ++ py "Food" ++ [NL]))
                    (py "HALA MARK") (S754_zero false)
                    (py " ") (py "Food") [NL] world0
                    eq_refl eq_refl eq_refl eq_refl)).
    vm_compute. tauto.
  - apply (proj2 (get_gpt_category_exact_membership
                    (service_says ([] ++ py "Groceries" ++ []))
                    (py "HALA MARK") (S754_zero false)
                    [] (py "Groceries") [] world0
                    eq_refl eq_refl eq_refl eq_refl)).
    vm_compute. intuition discriminate.
Defined.

(** Labels in another case or with a full stop are not labels. *)
Lemma near_miss_labels :
  get_gpt_category (service_says (py "food")) (py "HALA MARK")
                   (S754_zero false) world0
  = (Return (py "Other"), world0)
  /\ get_gpt_category (service_says (py "Food.")) (py "HALA MARK")
                       (S754_zero false) world0
     = (Return (py "Other"), world0).
Proof. split; vm_compute; reflexivity. Qed.

Lemma extract_rejects_other_types_witness :
  extract_transaction_details no_other_digits no_other_alnum other_sms world0
  = (Return None, World [NotPurchase] None true).
Proof.
  apply (extract_rejects_other_types no_other_digits no_other_alnum
           other_sms world0); reflexivity.
Defined.

Lemma extract_needs_all_fields_witness :
  extract_transaction_details no_other_digits no_other_alnum no_card_sms world0
  = (Return None, world0).
Proof.
  apply (extract_needs_all_fields no_other_digits no_other_alnum
           no_card_sms world0).
  - vm_compute. discriminate.
  - right. right. right. right. vm_compute. reflexivity.
Defined.

Lemma unparsable_date_raises_and_is_caught_witness :
  extract_transaction_details no_other_digits no_other_alnum month13_sms world0
  = (Raise ValueError, world0)
  /\ process_sms_text no_other_digits no_other_alnum service_down repr_sample
                      month13_sms world0
     = (Return None, World [ProcessError ValueError] None true).
Proof.
  apply (unparsable_date_raises_and_is_caught no_other_digits no_other_alnum
           service_down repr_sample month13_sms world0
           (found (re_search no_other_digits no_other_alnum type_re
                             month13_sms))
           (found (re_search no_other_digits no_other_alnum amount_re
                             month13_sms))
           (found (re_search no_other_digits no_other_alnum vendor_re
                             month13_sms))
           (found (re_search no_other_digits no_other_alnum date_re
                             month13_sms))
           (found (re_search no_other_digits no_other_alnum time_re
                             month13_sms))
           (found (re_search no_other_digits no_other_alnum card_re
                             month13_sms)));
    vm_compute; reflexivity.
Defined.

Lemma process_without_record_leaves_file_witness :
  fst (process_sms_text no_other_digits no_other_alnum service_down
                        repr_sample other_sms world0) = Return None
  /\ out_file (snd (process_sms_text no_other_digits no_other_alnum
                                     service_down repr_sample other_sms
                                     world0)) = out_file world0.
Proof.
  apply (process_without_record_leaves_file no_other_digits no_other_alnum
           service_down repr_sample other_sms world0).
  intros t. vm_compute. discriminate.
Defined.

Lemma two_digit_year_from_69_is_19xx_witness :
  exists dt,
    Date year99_record = date_isoformat dt
    /\ year dt = 1900 + 99
    /\ firstn 5 (Date year99_record)
       = [49; 57; digit_char (99 / 10); digit_char 99; 45].
Proof.
  eapply (two_digit_year_from_69_is_19xx no_other_digits no_other_alnum
            year99_sms world0 world0 year99_record).
  - vm_compute. reflexivity.
  - vm_compute. reflexivity.
  - vm_compute. reflexivity.
  - vm_compute. reflexivity.
  - lia.
Defined.

Lemma vendor_of_returned_record_witness :
  exists vm,
    re_search no_other_digits no_other_alnum vendor_re sample_sms = Some vm
    /\ Vendor sample_record
       = replace date_marker_artifact [] (strip (group vm 1))
    /\ (forall c r, Vendor sample_record = c :: r ->
                    Py_UNICODE_ISSPACE c = false)
    /\ (Vendor sample_record = [] <->
        forallb Py_UNICODE_ISSPACE (group vm 1) = true)
    /\ ((count_occ Z.eq_dec (strip (group vm 1)) NL <= 1)%nat ->
        contains date_marker_artifact (Vendor sample_record) = false).
Proof.
  apply (vendor_of_returned_record no_other_digits no_other_alnum sample_sms
           world0 world0 sample_record).
  vm_compute. reflexivity.
Defined.

(** A record comes back with an empty Vendor. *)
Lemma blank_vendor_counterexample :
  exists t,
    extract_transaction_details no_other_digits no_other_alnum
                                blank_vendor_sms world0
    = (Return (Some t), world0)
    /\ Vendor t = [].
Proof. eexists. split; vm_compute; reflexivity. Qed.











